(** * CodeEditor: the test-session progression protocol

    A shallow embedding of the [CodeEditor] React component
    (components/test/CodeEditor.tsx).  Hook state is a record, every handler
    is a function from the render it closes over to the ordered list of
    calls it makes (state setters and calls to collaborators), and the
    component instance is driven by a list of UI and network events. *)

From stdpp Require Import base strings list gmap.
From Stdlib Require Import ZArith.

Local Open Scope Z_scope.
Local Open Scope string_scope.
Local Open Scope list_scope.

(** ** Data model *)

(** [type Language = 'python' | 'javascript' | 'java' | 'cpp'] *)
Inductive Language := python | javascript | java | cpp.

#[global] Instance Language_eq_dec : EqDecision Language.
Proof. solve_decision. Defined.

(** [const languages: { value: Language; label: string }[]] *)
Definition languages : list (Language * string) :=
  [ (python, "Python"); (javascript, "JavaScript"); (java, "Java"); (cpp, "C++") ].

(** [const defaultCode: Record<Language, string>] *)
Definition defaultCode (l : Language) : string :=
  match l with
  | python => "# Write your Python code here"
  | javascript => "// Write your JavaScript code here"
  | java => "// Write your Java code here"
  | cpp => "// Write your C++ code here"
  end.

(** Values the handler meets in the parsed response ([data] has type [any]).
    Numbers are kept as integers: the code only ever tests them for
    truthiness. *)
#[local] Unset Elimination Schemes.
Inductive JsVal :=
| JUndefined
| JNull
| JBool (b : bool)
| JNum (n : Z)
| JStr (s : string)
| JArr (items : list JsVal)
| JObj (fields : gmap string JsVal).
#[local] Set Elimination Schemes.

(** JavaScript's ToBoolean, as used by [if (x)] and [x || y]. *)
Definition truthy (v : JsVal) : bool :=
  match v with
  | JUndefined | JNull => false
  | JBool b => b
  | JNum n => negb (Z.eqb n 0)
  | JStr s => negb (String.eqb s "")
  | JArr _ | JObj _ => true
  end.

(** Property read [d.k] for the keys the component reads ([error],
    [isComplete], [nextQuestion]): a TypeError ([None]) on [null] and
    [undefined], the stored value on an object, [undefined] otherwise. *)
Definition getProp (d : JsVal) (k : string) : option JsVal :=
  match d with
  | JUndefined | JNull => None
  | JObj fields => Some (default JUndefined (fields !! k))
  | _ => Some JUndefined
  end.

(** [initialStoredCode?: string | null] *)
Inductive Stored := SUndefined | SNull | SText (s : string).

#[global] Instance Stored_eq_dec : EqDecision Stored.
Proof. solve_decision. Defined.

(** [initialStoredCode || fallback] *)
Definition orElse (x : Stored) (fallback : string) : string :=
  match x with
  | SText s => if String.eqb s "" then fallback else s
  | SUndefined | SNull => fallback
  end.

(** The data props of the component; the two callback props
    ([onQuestionChange], [onTestComplete]) appear as calls in the log. *)
Record Props := mkProps {
  currentQuestionId : string;
  initialStoredCode : Stored
}.

(** [const { markTestAsCompleted, testStatus } = useAuth()]: the part of
    [testStatus] that is read. *)
Record TestStatus := mkTestStatus { attemptsRemaining : Z }.

(** The six [useState] cells. *)
Record State := mkState {
  language : Language;
  code : string;
  isSubmitting : bool;
  showErrorDialog : bool;
  showReattemptDialog : bool;
  submissionResponse : JsVal
}.

(** Body of the POST request: [JSON.stringify({ questionId, code, language })]. *)
Record SubmissionRequest := mkRequest {
  questionId : string;
  req_code : string;
  req_language : Language
}.

(** Every call a handler makes, in program order: the state setters and the
    calls to the collaborators (fetch, toast, auth, router, callback props). *)
Inductive Action :=
| SetLanguage (l : Language)
| SetCode (c : string)
| SetIsSubmitting (b : bool)
| SetShowErrorDialog (b : bool)
| SetShowReattemptDialog (b : bool)
| SetSubmissionResponse (d : JsVal)
| Fetch (url method : string) (body : SubmissionRequest)
| ShowToast (message variant : string)
| MarkTestAsCompleted
| RouterPush (route : string)
| OnQuestionChange (question : JsVal)
| OnTestComplete (shouldReattempt : bool) (previousCode : string).

(** Effect of one call on the hook state. *)
Definition apply_action (s : State) (a : Action) : State :=
  match a with
  | SetLanguage l =>
      mkState l (code s) (isSubmitting s) (showErrorDialog s)
              (showReattemptDialog s) (submissionResponse s)
  | SetCode c =>
      mkState (language s) c (isSubmitting s) (showErrorDialog s)
              (showReattemptDialog s) (submissionResponse s)
  | SetIsSubmitting b =>
      mkState (language s) (code s) b (showErrorDialog s)
              (showReattemptDialog s) (submissionResponse s)
  | SetShowErrorDialog b =>
      mkState (language s) (code s) (isSubmitting s) b
              (showReattemptDialog s) (submissionResponse s)
  | SetShowReattemptDialog b =>
      mkState (language s) (code s) (isSubmitting s) (showErrorDialog s)
              b (submissionResponse s)
  | SetSubmissionResponse d =>
      mkState (language s) (code s) (isSubmitting s) (showErrorDialog s)
              (showReattemptDialog s) d
  | Fetch _ _ _ | ShowToast _ _ | MarkTestAsCompleted | RouterPush _
  | OnQuestionChange _ | OnTestComplete _ _ => s
  end.

Definition apply_actions (s : State) (acts : list Action) : State :=
  foldl apply_action s acts.

(** Recognisers used to count calls in a log. *)
Definition is_fetch (a : Action) : bool :=
  match a with Fetch _ _ _ => true | _ => false end.
Definition is_set_language (a : Action) : bool :=
  match a with SetLanguage _ => true | _ => false end.
Definition is_dialog_setter (a : Action) : bool :=
  match a with
  | SetShowErrorDialog _ | SetShowReattemptDialog _ => true
  | _ => false
  end.
Definition is_mark_completed (a : Action) : bool :=
  match a with MarkTestAsCompleted => true | _ => false end.
Definition is_router_push (a : Action) : bool :=
  match a with RouterPush _ => true | _ => false end.
Definition is_on_question_change (a : Action) : bool :=
  match a with OnQuestionChange _ => true | _ => false end.
Definition is_on_test_complete (a : Action) : bool :=
  match a with OnTestComplete _ _ => true | _ => false end.

(** ** A log-and-exception monad for the body of [handleSubmit] *)

(** A computation logs calls and either returns or throws. *)
Inductive Completion (A : Type) :=
| Return (log : list Action) (a : A)
| Throw (log : list Action).
Arguments Return {A} log a.
Arguments Throw {A} log.

Definition ret {A} (a : A) : Completion A := Return [] a.
Definition throw {A} : Completion A := Throw [].
Definition call (a : Action) : Completion unit := Return [a] tt.

Definition bind {A B} (m : Completion A) (k : A -> Completion B) : Completion B :=
  match m with
  | Return l a =>
      match k a with
      | Return l' b => Return (l ++ l') b
      | Throw l' => Throw (l ++ l')
      end
  | Throw l => Throw l
  end.

Notation "x <- m ;; k" := (bind m (fun x => k))
  (at level 100, m at next level, right associativity).
Notation "m ;;; k" := (bind m (fun _ => k))
  (at level 100, right associativity).

(** [d.k] inside the monad. *)
Definition prop (d : JsVal) (k : string) : Completion JsVal :=
  match getProp d k with
  | Some v => ret v
  | None => throw
  end.

(** [try { body } catch (error) { handler } finally { final }] for a handler
    and a final block that do not throw: its log. *)
Definition try_catch_finally (body : Completion unit)
    (handler final : list Action) : list Action :=
  match body with
  | Return l _ => l ++ final
  | Throw l => l ++ handler ++ final
  end.

(** ** The network *)

(** How [await fetch(...)] followed by [await response.json()] can settle:
    the fetch promise rejects, or a response arrives with its [ok] flag and
    a body that parses ([Some]) or not ([None]: [response.json()] rejects). *)
Inductive FetchOutcome :=
| Rejected
| Responded (ok : bool) (body : option JsVal).

(** ** The handlers of one render *)

Section Render.

(** What the closures of one render capture. *)
Variable props : Props.
Variable testStatus : TestStatus.
Variable st : State.

(** The body of the [useEffect] with dependencies
    [[initialStoredCode, language]]. *)
Definition effect : list Action :=
  [ SetCode (orElse (initialStoredCode props) (defaultCode (language st))) ].

Definition handleLanguageChange (value : Language) : list Action :=
  [ SetLanguage value; SetCode (defaultCode value) ].

Definition handleEditorChange (value : option string) : list Action :=
  match value with
  | Some v => [ SetCode v ]
  | None => []
  end.

(** [handleSubmit] up to its first [await]. *)
Definition handleSubmit_start : list Action :=
  [ SetIsSubmitting true;
    Fetch "/api/coding-problem" "POST"
          (mkRequest (currentQuestionId props) (code st) (language st)) ].

(** The rest of the [try] block, once the request has settled. *)
Definition handleSubmit_try (o : FetchOutcome) : Completion unit :=
  match o with
  | Rejected => throw
  | Responded ok body =>
      if negb ok then throw else
      match body with
      | None => throw
      | Some data =>
          e <- prop data "error" ;;
          (if truthy e then throw else ret tt) ;;;
          call (ShowToast "Code submitted successfully" "default") ;;;
          c <- prop data "isComplete" ;;
          if truthy c then
            if Z.ltb 0 (attemptsRemaining testStatus) then
              call (SetSubmissionResponse data) ;;;
              call (SetShowReattemptDialog true)
            else
              call MarkTestAsCompleted ;;;
              call (RouterPush "/test-complete")
          else
            q <- prop data "nextQuestion" ;;
            if truthy q then
              call (SetCode (defaultCode (language st))) ;;;
              call (OnQuestionChange q)
            else ret tt
      end
  end.

(** [handleSubmit] after its [await]s: try, catch, finally. *)
Definition handleSubmit_resume (o : FetchOutcome) : list Action :=
  try_catch_finally (handleSubmit_try o)
    [ ShowToast "Failed to submit code. Please try again." "destructive";
      SetShowErrorDialog true ]
    [ SetIsSubmitting false ].

Definition handleReattempt : list Action :=
  [ SetShowReattemptDialog false; OnTestComplete true (code st) ].

Definition handleFinishTest : list Action :=
  [ MarkTestAsCompleted; RouterPush "/test-complete" ].

End Render.

(** ** The component instance and its events *)

(** A submission whose request is in flight: the render that the running
    [handleSubmit] closure captured. *)
Record Pending := mkPending {
  p_props : Props;
  p_testStatus : TestStatus;
  p_state : State
}.

(** A mounted component: current props and auth context, hook state, the
    dependency values of the last effect run, and the requests in flight
    (oldest first). *)
Record Instance := mkInstance {
  i_props : Props;
  i_testStatus : TestStatus;
  i_state : State;
  i_deps : Stored * Language;
  i_inflight : list Pending
}.

(** After a render commits, the effect runs when one of its dependencies
    differs from the values of its last run. *)
Definition run_effect (p : Props) (s : State) (deps : Stored * Language)
    : State * (Stored * Language) * list Action :=
  let deps' := (initialStoredCode p, language s) in
  if decide (deps' = deps) then (s, deps, [])
  else (apply_actions s (effect p s), deps', effect p s).

(** The [useState] initial values. *)
Definition initial_state (p : Props) : State :=
  mkState python (orElse (initialStoredCode p) (defaultCode python))
          false false false JNull.

(** Mount: first render, then the effect runs once. *)
Definition mount (p : Props) (ts : TestStatus) : Instance :=
  let s0 := initial_state p in
  mkInstance p ts (apply_actions s0 (effect p s0))
             (initialStoredCode p, language s0) [].

(** Apply the calls of a handler, re-render, run the effect. *)
Definition react (i : Instance) (acts : list Action) (inflight : list Pending)
    : Instance * list Action :=
  let s1 := apply_actions (i_state i) acts in
  let '(s2, deps, eff) := run_effect (i_props i) s1 (i_deps i) in
  (mkInstance (i_props i) (i_testStatus i) s2 deps inflight, acts ++ eff).

(** What can happen to a mounted editor: the callbacks the rendered tree
    registers, the settlement of a request, and a re-render from outside. *)
Inductive Event :=
| SelectLanguage (value : Language)      (* Select onValueChange *)
| EditorChange (value : option string)   (* Editor onChange *)
| ClickSubmit                            (* the submit Button *)
| RequestSettles (o : FetchOutcome)      (* the oldest request in flight settles *)
| ErrorDialogOpenChange (open : bool)    (* error AlertDialog onOpenChange *)
| ClickCloseError                        (* error AlertDialogCancel onClick *)
| ReattemptDialogOpenChange (open : bool) (* reattempt AlertDialog onOpenChange *)
| ClickReattempt                         (* AlertDialogAction onClick *)
| ClickFinishTest                        (* reattempt AlertDialogCancel onClick *)
| Rerender (p : Props) (ts : TestStatus). (* the parent or the auth context changes *)

(** One event, handled by the closures of the render that is on screen,
    that is, of the current state.  Controls that are disabled or not
    rendered ignore it: the submit button has [disabled={isSubmitting}],
    the dialog buttons exist while their dialog is open, and the reattempt
    button is rendered under [testStatus.attemptsRemaining > 0].  A request
    that settles resumes the [handleSubmit] closure that sent it. *)
Definition step (i : Instance) (e : Event) : Instance * list Action :=
  let p := i_props i in
  let ts := i_testStatus i in
  let s := i_state i in
  match e with
  | SelectLanguage value =>
      react i (handleLanguageChange value) (i_inflight i)
  | EditorChange value =>
      react i (handleEditorChange value) (i_inflight i)
  | ClickSubmit =>
      if isSubmitting s then (i, [])
      else react i (handleSubmit_start p s)
                 (i_inflight i ++ [mkPending p ts s])
  | RequestSettles o =>
      match i_inflight i with
      | [] => (i, [])
      | pd :: rest =>
          react i (handleSubmit_resume (p_testStatus pd) (p_state pd) o) rest
      end
  | ErrorDialogOpenChange open =>
      react i [SetShowErrorDialog open] (i_inflight i)
  | ClickCloseError =>
      if showErrorDialog s then react i [SetShowErrorDialog false] (i_inflight i)
      else (i, [])
  | ReattemptDialogOpenChange open =>
      react i [SetShowReattemptDialog open] (i_inflight i)
  | ClickReattempt =>
      if showReattemptDialog s && Z.ltb 0 (attemptsRemaining ts)
      then react i (handleReattempt s) (i_inflight i)
      else (i, [])
  | ClickFinishTest =>
      if showReattemptDialog s then react i handleFinishTest (i_inflight i)
      else (i, [])
  | Rerender p' ts' =>
      react (mkInstance p' ts' s (i_deps i) (i_inflight i)) [] (i_inflight i)
  end.

(** A sequence of events, with the concatenated log. *)
Fixpoint run (i : Instance) (evs : list Event) : Instance * list Action :=
  match evs with
  | [] => (i, [])
  | e :: evs' =>
      let '(i1, l1) := step i e in
      let '(i2, l2) := run i1 evs' in
      (i2, l1 ++ l2)
  end.

(** Instances that some event sequence produces from a mount. *)
Definition reachable (i : Instance) : Prop :=
  exists p ts evs, (run (mount p ts) evs).1 = i.

(** ** Invariants and classifications used below *)

(** The dependency values recorded on an instance are those of its current
    props and state. *)
Definition deps_current (i : Instance) : Prop :=
  i_deps i = (initialStoredCode (i_props i), language (i_state i)).

(** What the [catch] and [finally] blocks log after a throw. *)
Definition failure_log : list Action :=
  [ ShowToast "Failed to submit code. Please try again." "destructive";
    SetShowErrorDialog true; SetIsSubmitting false ].

(** The events that settle a request. *)
Definition is_settle (e : Event) : bool :=
  match e with RequestSettles _ => true | _ => false end.

(** The flag is up exactly while one request is in flight; there is never
    a second one. *)
Definition flag_tracks_request (i : Instance) : Prop :=
  (isSubmitting (i_state i) = false /\ i_inflight i = []) \/
  (isSubmitting (i_state i) = true /\ exists pd, i_inflight i = [pd]).

(** ** Sample props, auth contexts and response bodies *)

Definition sample_props : Props := mkProps "q1" (SText "print(1)").
Definition attempts_left : TestStatus := mkTestStatus 2.
Definition no_attempts_left : TestStatus := mkTestStatus 0.

(** [{ isComplete: false, nextQuestion: { id: "q2" } }] *)
Definition advance_body : JsVal :=
  JObj {[ "isComplete" := JBool false;
          "nextQuestion" := JObj {[ "id" := JStr "q2" ]} ]}.
(** [{ isComplete: true }] *)
Definition complete_body : JsVal := JObj {[ "isComplete" := JBool true ]}.
(** [{ error: "timeout" }] *)
Definition error_body : JsVal := JObj {[ "error" := JStr "timeout" ]}.
(** [{ isComplete: false }] *)
Definition bare_body : JsVal := JObj {[ "isComplete" := JBool false ]}.

(** A mounted editor whose submit button has just been clicked. *)
Definition submitted (ts : TestStatus) : Instance :=
  (step (mount sample_props ts) ClickSubmit).1.

(** ** What the render shows *)

(** The label of the submit button:
    [isSubmitting ? 'Submitting...' : 'Submit Code']. *)
Definition submit_label (s : State) : string :=
  if isSubmitting s then "Submitting..." else "Submit Code".

(** The text of the reattempt dialog, chosen on
    [testStatus.attemptsRemaining > 0]. *)
Definition reattempt_description (ts : TestStatus) : string :=
  if Z.ltb 0 (attemptsRemaining ts)
  then "You have an opportunity to reattempt this test. Would you like to continue with your current attempt or start a new one?"
  else "You have completed your test attempts.".

(** Whether the dialog footer renders the Reattempt Test button:
    [testStatus.attemptsRemaining > 0 && ...]. *)
Definition reattempt_button_shown (ts : TestStatus) : bool :=
  Z.ltb 0 (attemptsRemaining ts).

(** ** Classifications of logs, outcomes and events *)

(** The call of the [finally] block. *)
Definition is_end_submit (a : Action) : bool :=
  match a with SetIsSubmitting false => true | _ => false end.

(** The outcomes on which the [try] block throws: the fetch rejects, the
    response is not [ok], its body does not parse, the body is [null] (the
    read of [data.error] throws), or [data.error] is truthy. *)
Definition throws (o : FetchOutcome) : Prop :=
  o = Rejected \/
  (exists body, o = Responded false body) \/
  o = Responded true None \/
  (exists data, o = Responded true (Some data) /\
                getProp data "error" = None) \/
  (exists data e, o = Responded true (Some data) /\
                  getProp data "error" = Some e /\ truthy e = true).

(** Events under which the auth context stays [ts] and the dialog library
    does not open the reattempt dialog by itself: every event but a
    re-render that brings another [attemptsRemaining] and the library
    reporting an opening.  Re-renders that only change the props pass. *)
Definition keeps_status (ts : TestStatus) (e : Event) : bool :=
  match e with
  | Rerender _ ts' => Z.eqb (attemptsRemaining ts') (attemptsRemaining ts)
  | ReattemptDialogOpenChange true => false
  | _ => true
  end.

(** A click on a button of the reattempt dialog, as the component receives
    it: the button's [onClick], then the dialog closing through
    [onOpenChange={setShowReattemptDialog}]. *)
Definition finish_test_click : list Event :=
  [ClickFinishTest; ReattemptDialogOpenChange false].
Definition reattempt_click : list Event :=
  [ClickReattempt; ReattemptDialogOpenChange false].

(** ** Basic facts about logs and the render cycle *)

Lemma apply_actions_app (s : State) (l1 l2 : list Action) :
  apply_actions s (l1 ++ l2) = apply_actions (apply_actions s l1) l2.
Proof. unfold apply_actions. apply foldl_app. Qed.

(** A log without [setLanguage] leaves the selected language alone. *)
Lemma language_preserved (l : list Action) :
  forall s, forallb (fun a => negb (is_set_language a)) l = true ->
            language (apply_actions s l) = language s.
Proof.
  induction l as [|a l IH]; intros s H; [reflexivity|].
  simpl in H. apply andb_prop in H as [Ha Hl].
  change (language (apply_actions (apply_action s a) l) = language s).
  rewrite IH by exact Hl. destruct a; simpl in *; congruence.
Qed.

(** What [react] returns, spelled out. *)
Lemma react_spec (i : Instance) (acts : list Action) (fl : list Pending) :
  let s1 := apply_actions (i_state i) acts in
  let deps' := (initialStoredCode (i_props i), language s1) in
  react i acts fl =
    if decide (deps' = i_deps i)
    then (mkInstance (i_props i) (i_testStatus i) s1 (i_deps i) fl, acts ++ [])
    else (mkInstance (i_props i) (i_testStatus i)
                     (apply_actions s1 (effect (i_props i) s1)) deps' fl,
          acts ++ effect (i_props i) s1).
Proof.
  intros s1 deps'. unfold react, run_effect. fold s1. fold deps'.
  destruct (decide (deps' = i_deps i)); reflexivity.
Qed.

(** When the handler does not change the language, the effect stays quiet. *)
Lemma react_quiet (i : Instance) (acts : list Action) (fl : list Pending) :
  deps_current i ->
  language (apply_actions (i_state i) acts) = language (i_state i) ->
  react i acts fl =
    (mkInstance (i_props i) (i_testStatus i)
                (apply_actions (i_state i) acts) (i_deps i) fl, acts).
Proof.
  intros Hd Hl. rewrite react_spec. cbv zeta. rewrite Hl, <- Hd.
  destruct (decide (i_deps i = i_deps i)); [|congruence].
  now rewrite app_nil_r.
Qed.

Lemma react_deps_current (i : Instance) (acts : list Action) (fl : list Pending) :
  deps_current (react i acts fl).1.
Proof.
  rewrite react_spec. cbv zeta.
  destruct (decide _) as [E|E]; unfold deps_current; simpl; congruence.
Qed.

Lemma react_props (i : Instance) (acts : list Action) (fl : list Pending) :
  i_props (react i acts fl).1 = i_props i /\
  i_testStatus (react i acts fl).1 = i_testStatus i /\
  i_inflight (react i acts fl).1 = fl.
Proof. rewrite react_spec. cbv zeta. destruct (decide _); simpl; auto. Qed.

(** Every field but [code] is decided by the handler's own calls. *)
Lemma react_frame (i : Instance) (acts : list Action) (fl : list Pending) :
  let s1 := apply_actions (i_state i) acts in
  let s2 := i_state (react i acts fl).1 in
  language s2 = language s1 /\ isSubmitting s2 = isSubmitting s1 /\
  showErrorDialog s2 = showErrorDialog s1 /\
  showReattemptDialog s2 = showReattemptDialog s1 /\
  submissionResponse s2 = submissionResponse s1.
Proof.
  cbv zeta. rewrite react_spec. cbv zeta.
  destruct (decide _); simpl; auto.
Qed.

Lemma mount_deps_current (p : Props) (ts : TestStatus) : deps_current (mount p ts).
Proof. reflexivity. Qed.

Lemma step_deps_current (i : Instance) (e : Event) :
  deps_current i -> deps_current (step i e).1.
Proof.
  intros Hd. destruct e; simpl;
    repeat match goal with
           | |- context [if ?b then _ else _] => destruct b
           | |- context [match ?l with [] => _ | _ :: _ => _ end] => destruct l
           end;
    try exact Hd; apply react_deps_current.
Qed.

Lemma run_app (i : Instance) (evs1 evs2 : list Event) :
  run i (evs1 ++ evs2) =
    let '(i1, l1) := run i evs1 in
    let '(i2, l2) := run i1 evs2 in
    (i2, l1 ++ l2).
Proof.
  revert i. induction evs1 as [|e evs1 IH]; intros i; simpl.
  - destruct (run i evs2); reflexivity.
  - destruct (step i e) as [i1 l1]. rewrite IH.
    destruct (run i1 evs1) as [i2 l2]. destruct (run i2 evs2) as [i3 l3].
    now rewrite app_assoc.
Qed.

Lemma reachable_mount (p : Props) (ts : TestStatus) : reachable (mount p ts).
Proof. exists p, ts, []. reflexivity. Qed.

Lemma reachable_step (i : Instance) (e : Event) :
  reachable i -> reachable (step i e).1.
Proof.
  intros (p & ts & evs & H). exists p, ts, (evs ++ [e]).
  rewrite run_app. destruct (run (mount p ts) evs) as [i1 l1]. simpl in H.
  subst i1. simpl. destruct (step i e). reflexivity.
Qed.

Lemma reachable_run (i : Instance) (evs : list Event) :
  reachable i -> reachable (run i evs).1.
Proof.
  revert i. induction evs as [|e evs IH]; intros i H; [exact H|].
  simpl. pose proof (reachable_step i e H) as H1.
  destruct (step i e) as [i1 l1]. specialize (IH i1 H1).
  destruct (run i1 evs). exact IH.
Qed.

(** Induction over the events that lead to an instance. *)
Lemma reachable_ind (P : Instance -> Prop) :
  (forall p ts, P (mount p ts)) ->
  (forall i e, reachable i -> P i -> P (step i e).1) ->
  forall i, reachable i -> P i.
Proof.
  intros Hm Hs i (p & ts & evs & H). subst i.
  induction evs as [|e evs IH] using rev_ind; [apply Hm|].
  rewrite run_app.
  assert (Hr : reachable (run (mount p ts) evs).1)
    by (apply reachable_run, reachable_mount).
  destruct (run (mount p ts) evs) as [i1 l1]. simpl in *.
  specialize (Hs i1 e Hr IH). destruct (step i1 e). exact Hs.
Qed.

Lemma reachable_deps_current (i : Instance) : reachable i -> deps_current i.
Proof.
  apply reachable_ind.
  - apply mount_deps_current.
  - intros ? ? _. apply step_deps_current.
Qed.

(** ** The log of [handleSubmit_resume], outcome by outcome *)

(** A value that has one property read defined is not [null]/[undefined],
    so every read on it is defined. *)
Lemma getProp_defined (d : JsVal) (k k' : string) (v : JsVal) :
  getProp d k = Some v -> exists v', getProp d k' = Some v'.
Proof. destruct d; simpl; intros H; try discriminate; eauto. Qed.

Lemma resume_rejected (ts : TestStatus) (s : State) :
  handleSubmit_resume ts s Rejected = failure_log.
Proof. reflexivity. Qed.

Lemma resume_not_ok (ts : TestStatus) (s : State) (body : option JsVal) :
  handleSubmit_resume ts s (Responded false body) = failure_log.
Proof. reflexivity. Qed.

Lemma resume_unparsable (ts : TestStatus) (s : State) :
  handleSubmit_resume ts s (Responded true None) = failure_log.
Proof. reflexivity. Qed.

Lemma resume_type_error (ts : TestStatus) (s : State) (data : JsVal) :
  getProp data "error" = None ->
  handleSubmit_resume ts s (Responded true (Some data)) = failure_log.
Proof.
  intros He. unfold handleSubmit_resume, handleSubmit_try, prop. simpl.
  now rewrite He.
Qed.

Lemma resume_error (ts : TestStatus) (s : State) (data e : JsVal) :
  getProp data "error" = Some e -> truthy e = true ->
  handleSubmit_resume ts s (Responded true (Some data)) = failure_log.
Proof.
  intros He Hte. unfold handleSubmit_resume, handleSubmit_try, prop. simpl.
  rewrite He. simpl. now rewrite Hte.
Qed.

(** The [try] block when no error is reported: it returns, having logged the
    toast and the calls of the branch taken. *)
Lemma try_success (ts : TestStatus) (s : State) (data e c q : JsVal) :
  getProp data "error" = Some e -> truthy e = false ->
  getProp data "isComplete" = Some c ->
  getProp data "nextQuestion" = Some q ->
  handleSubmit_try ts s (Responded true (Some data)) =
    Return
      (ShowToast "Code submitted successfully" "default" ::
       (if truthy c then
          if Z.ltb 0 (attemptsRemaining ts)
          then [SetSubmissionResponse data; SetShowReattemptDialog true]
          else [MarkTestAsCompleted; RouterPush "/test-complete"]
        else if truthy q
             then [SetCode (defaultCode (language s)); OnQuestionChange q]
             else []))
      tt.
Proof.
  intros He Hte Hc Hq. unfold handleSubmit_try, prop. simpl.
  rewrite He, Hc, Hq. simpl. rewrite Hte. simpl.
  destruct (truthy c); simpl.
  - destruct (Z.ltb 0 (attemptsRemaining ts)); reflexivity.
  - destruct (truthy q); reflexivity.
Qed.

Lemma resume_success (ts : TestStatus) (s : State) (data e c q : JsVal) :
  getProp data "error" = Some e -> truthy e = false ->
  getProp data "isComplete" = Some c ->
  getProp data "nextQuestion" = Some q ->
  handleSubmit_resume ts s (Responded true (Some data)) =
    ShowToast "Code submitted successfully" "default" ::
    (if truthy c then
       if Z.ltb 0 (attemptsRemaining ts)
       then [SetSubmissionResponse data; SetShowReattemptDialog true]
       else [MarkTestAsCompleted; RouterPush "/test-complete"]
     else if truthy q
          then [SetCode (defaultCode (language s)); OnQuestionChange q]
          else [])
    ++ [SetIsSubmitting false].
Proof.
  intros He Hte Hc Hq. unfold handleSubmit_resume.
  now rewrite (try_success ts s data e c q He Hte Hc Hq).
Qed.

(** Case analysis on a settled request: failure, or success with the three
    fields read. *)
Lemma resume_cases (ts : TestStatus) (s : State) (o : FetchOutcome) :
  handleSubmit_resume ts s o = failure_log \/
  exists data e c q,
    o = Responded true (Some data) /\
    getProp data "error" = Some e /\ truthy e = false /\
    getProp data "isComplete" = Some c /\
    getProp data "nextQuestion" = Some q.
Proof.
  destruct o as [|[] [data|]]; auto.
  destruct (getProp data "error") as [e|] eqn:He.
  - destruct (getProp_defined data "error" "isComplete" e He) as [c Hc].
    destruct (getProp_defined data "error" "nextQuestion" e He) as [q Hq].
    destruct (truthy e) eqn:Hte.
    + left. eapply resume_error; eauto.
    + right. exists data, e, c, q. auto.
  - left. now apply resume_type_error.
Qed.

(** Destructs the outcome of a settled request in the goal. *)
Ltac settle_cases ts s o :=
  let data := fresh "data" in
  let e := fresh "e" in
  let c := fresh "c" in
  let q := fresh "q" in
  let H := fresh "Hlog" in
  destruct (resume_cases ts s o)
    as [H | (data & e & c & q & -> & ? & ? & ? & ?)];
  [ rewrite H
  | rewrite (resume_success ts s data e c q) by assumption;
    destruct (truthy c) eqn:?, (Z.ltb 0 (attemptsRemaining ts)) eqn:?,
             (truthy q) eqn:? ].

Lemma resume_no_set_language (ts : TestStatus) (s : State) (o : FetchOutcome) :
  forallb (fun a => negb (is_set_language a)) (handleSubmit_resume ts s o) = true.
Proof. settle_cases ts s o; reflexivity. Qed.

(** The [finally] block is the last thing every path does. *)
Lemma resume_ends_with_finally (ts : TestStatus) (s : State) (o : FetchOutcome) :
  exists l, handleSubmit_resume ts s o = l ++ [SetIsSubmitting false].
Proof.
  unfold handleSubmit_resume, try_catch_finally.
  destruct (handleSubmit_try ts s o) as [l []|l].
  - now exists l.
  - eexists. rewrite app_assoc. reflexivity.
Qed.

(** Processing a settled request in a reachable instance: the captured
    handler's log is applied to the current state, and no effect runs. *)
Lemma step_settle (i : Instance) (pd : Pending) (rest : list Pending)
    (o : FetchOutcome) :
  deps_current i -> i_inflight i = pd :: rest ->
  let log := handleSubmit_resume (p_testStatus pd) (p_state pd) o in
  step i (RequestSettles o) =
    (mkInstance (i_props i) (i_testStatus i) (apply_actions (i_state i) log)
                (i_deps i) rest, log).
Proof.
  intros Hd Hfl log. simpl. rewrite Hfl. apply react_quiet; [exact Hd|].
  apply language_preserved, resume_no_set_language.
Qed.

(** Clicking the enabled submit button. *)
Lemma step_click_submit (i : Instance) :
  deps_current i -> isSubmitting (i_state i) = false ->
  step i ClickSubmit =
    (mkInstance (i_props i) (i_testStatus i)
                (apply_action (i_state i) (SetIsSubmitting true)) (i_deps i)
                (i_inflight i ++
                 [mkPending (i_props i) (i_testStatus i) (i_state i)]),
     handleSubmit_start (i_props i) (i_state i)).
Proof.
  intros Hd Hs. simpl. rewrite Hs. now apply react_quiet.
Qed.

(** While a request is in flight, no event but its settlement touches the
    flag or the list of requests in flight, and none calls
    [onQuestionChange]. *)
Lemma step_in_flight (i : Instance) (e : Event) :
  is_settle e = false -> isSubmitting (i_state i) = true ->
  isSubmitting (i_state (step i e).1) = true /\
  i_inflight (step i e).1 = i_inflight i /\
  filter is_on_question_change (step i e).2 = [].
Proof.
  intros He Hs.
  destruct e as [v|v| |o|b| |b| | |p' ts']; try discriminate; simpl;
    rewrite ?Hs;
    repeat match goal with
           | |- context [if ?b then _ else _] => destruct b
           end;
    try (now auto);
    match goal with
    | |- context [react ?j ?acts ?fl] =>
        pose proof (react_frame j acts fl) as (_ & Hf & _);
        pose proof (react_props j acts fl) as (_ & _ & Hp);
        rewrite Hf, Hp; rewrite (react_spec j acts fl); cbv zeta;
        destruct (decide _); simpl; try destruct v; simpl; auto
    end.
Qed.

(** After the submit button was clicked, and whatever else happens while
    the request is in flight, the flag stays up and the request stays the
    only one in flight. *)
Lemma run_in_flight (mid : list Event) :
  forall i,
    forallb (fun e => negb (is_settle e)) mid = true ->
    isSubmitting (i_state i) = true ->
    isSubmitting (i_state (run i mid).1) = true /\
    i_inflight (run i mid).1 = i_inflight i /\
    filter is_on_question_change (run i mid).2 = [].
Proof.
  induction mid as [|e mid IH]; intros i Hmid Hs; [now auto|].
  simpl in Hmid. apply andb_prop in Hmid as [He Hmid].
  apply negb_true_iff in He.
  destruct (step_in_flight i e He Hs) as (H1 & H2 & H3).
  simpl. destruct (step i e) as [i1 l1]. simpl in *.
  destruct (IH i1 Hmid H1) as (H4 & H5 & H6).
  destruct (run i1 mid) as [i2 l2]. simpl in *.
  rewrite filter_app, H3, H6. split; [|split]; [congruence..|reflexivity].
Qed.

(** The flag is up exactly while one request is in flight. *)
Lemma at_most_one_in_flight (i : Instance) :
  reachable i -> flag_tracks_request i.
Proof.
  apply reachable_ind; [intros; now left|].
  intros j e Hr Hinv. pose proof (reachable_deps_current j Hr) as Hd.
  destruct (is_settle e) eqn:He.
  - destruct e as [| | |o| | | | | |]; try discriminate.
    destruct Hinv as [[Hs Hfl]|[Hs [pd Hfl]]].
    + simpl. rewrite Hfl. left. auto.
    + rewrite (step_settle j pd [] o Hd Hfl). left. split; [|reflexivity].
      simpl. destruct (resume_ends_with_finally (p_testStatus pd) (p_state pd) o)
        as [l ->].
      now rewrite apply_actions_app.
  - destruct Hinv as [[Hs Hfl]|[Hs [pd Hfl]]].
    + destruct e as [v|v| |o|b| |b| | |p' ts']; try discriminate;
        try (rewrite (step_click_submit j Hd Hs), Hfl; right; simpl; eauto);
        left; simpl;
        repeat match goal with
               | |- context [if ?b then _ else _] => destruct b
               end;
        try (now auto);
        match goal with
        | |- context [react ?k ?acts ?fl] =>
            pose proof (react_frame k acts fl) as (_ & Hf & _);
            pose proof (react_props k acts fl) as (_ & _ & Hp);
            rewrite Hf, Hp; try destruct v; simpl; auto
        end.
    + destruct (step_in_flight j e He Hs) as (H1 & H2 & _).
      right. rewrite H1, H2. eauto.
Qed.

Lemma run_cons (i : Instance) (e : Event) (evs : list Event) :
  run i (e :: evs) =
    ((run (step i e).1 evs).1, (step i e).2 ++ (run (step i e).1 evs).2).
Proof.
  cbn [run]. destruct (step i e) as [i1 l1]. cbn [fst snd].
  now destruct (run i1 evs).
Qed.

Lemma run_snoc (i : Instance) (evs : list Event) (e : Event) :
  run i (evs ++ [e]) =
    ((step (run i evs).1 e).1, (run i evs).2 ++ (step (run i evs).1 e).2).
Proof.
  rewrite run_app. destruct (run i evs) as [i1 l1]. cbn [run fst snd].
  destruct (step i1 e) as [i2 l2]. cbn [fst snd]. now rewrite app_nil_r.
Qed.

(** One whole submission: the click on the enabled button, whatever happens
    while the request is in flight, and the settlement.  The handler that
    resumes is the one of the render that was clicked; its log is applied to
    the state the component is in when the request settles. *)
Lemma submit_invocation (i : Instance) (mid : list Event) (o : FetchOutcome) :
  reachable i -> isSubmitting (i_state i) = false ->
  forallb (fun e => negb (is_settle e)) mid = true ->
  let before := run i (ClickSubmit :: mid) in
  let log := handleSubmit_resume (i_testStatus i) (i_state i) o in
  let r := run i (ClickSubmit :: mid ++ [RequestSettles o]) in
  reachable before.1 /\
  i_inflight before.1 = [mkPending (i_props i) (i_testStatus i) (i_state i)] /\
  filter is_on_question_change before.2 = [] /\
  i_state r.1 = apply_actions (i_state before.1) log /\
  r.2 = before.2 ++ log.
Proof.
  intros Hr Hs Hmid. cbv zeta.
  pose proof (reachable_run i (ClickSubmit :: mid) Hr) as Hr'.
  pose proof (reachable_deps_current i Hr) as Hd.
  assert (Hfl : i_inflight i = []).
  { destruct (at_most_one_in_flight i Hr) as [[_ H]|[H _]]; [exact H|congruence]. }
  change (ClickSubmit :: mid ++ [RequestSettles o])
    with ((ClickSubmit :: mid) ++ [RequestSettles o]).
  rewrite (run_snoc i (ClickSubmit :: mid) (RequestSettles o)).
  revert Hr'. rewrite (run_cons i ClickSubmit mid).
  rewrite (step_click_submit i Hd Hs), Hfl. cbn [fst snd app].
  set (i1 := mkInstance _ _ _ _ _).
  destruct (run_in_flight mid i1 Hmid eq_refl) as (H1 & H2 & H3).
  intros Hr'.
  rewrite (step_settle _ _ [] o (reachable_deps_current _ Hr') H2).
  cbn [fst snd i_state p_testStatus p_state].
  repeat split; auto.
Qed.

Lemma submitted_reachable (ts : TestStatus) : reachable (submitted ts).
Proof. apply reachable_step, reachable_mount. Qed.

(** ** Mount *)

(** The selector offers each language once. *)
Lemma languages_cover (l : Language) :
  List.In l (map fst languages) /\ NoDup (map fst languages).
Proof.
  split; [destruct l; simpl; tauto|].
  repeat constructor; rewrite ?list_elem_of_In; simpl;
    intuition discriminate.
Qed.

(** The first render and the effect that follows it agree on [code]. *)
Lemma mount_state (p : Props) (ts : TestStatus) :
  i_state (mount p ts) = initial_state p.
Proof. reflexivity. Qed.

(** C9: at mount the editor holds [initialStoredCode] exactly when that prop
    is a non-empty string; when it is absent, [null] or the empty string the
    editor holds the default template of the initial language, python. *)
Theorem C9_mount_initial_code (p : Props) (ts : TestStatus) :
  let s := i_state (mount p ts) in
  language s = python /\
  code (initial_state p) = code s /\
  (forall t, initialStoredCode p = SText t -> (code s = t <-> t <> "")) /\
  (initialStoredCode p = SUndefined \/ initialStoredCode p = SNull \/
   initialStoredCode p = SText "" -> code s = defaultCode python).
Proof.
  cbv zeta. rewrite mount_state. unfold initial_state. simpl.
  split; [reflexivity|]. split; [reflexivity|]. split.
  - intros t ->. simpl. destruct (String.eqb_spec t "") as [->|Hne].
    + split; [intros H; discriminate H | congruence].
    + tauto.
  - intros [->| [->| ->]]; reflexivity.
Qed.

Lemma C9_mount_initial_code_witness :
  code (i_state (mount sample_props attempts_left)) = "print(1)" /\
  code (i_state (mount (mkProps "q1" SNull) attempts_left)) = defaultCode python.
Proof.
  split.
  - apply (proj1 (proj2 (proj2 (C9_mount_initial_code sample_props attempts_left)))
             "print(1)" eq_refl).
    discriminate.
  - apply (proj2 (proj2 (proj2
             (C9_mount_initial_code (mkProps "q1" SNull) attempts_left)))).
    right. left. reflexivity.
Defined.

(** ** Language selection *)

(** On its own, [handleLanguageChange] selects the language and installs its
    template, whatever the editor held. *)
Lemma handleLanguageChange_resets (s : State) (value : Language) :
  let s' := apply_actions s (handleLanguageChange value) in
  language s' = value /\ code s' = defaultCode value.
Proof. split; reflexivity. Qed.

(** After the re-render the effect has its say: when the selection really
    changed, the stored code (if truthy) replaces the template again. *)
Lemma select_language_code (i : Instance) (value : Language) :
  deps_current i ->
  let s' := i_state (step i (SelectLanguage value)).1 in
  language s' = value /\
  code s' = if decide (value = language (i_state i)) then defaultCode value
            else orElse (initialStoredCode (i_props i)) (defaultCode value).
Proof.
  intros Hd. cbv zeta. simpl. rewrite react_spec. cbv zeta. rewrite Hd.
  simpl. destruct (decide (_ = _)) as [E|E];
    destruct (decide (value = language (i_state i))) as [E'|E'];
    simpl; try (split; reflexivity); congruence.
Qed.

(** Without stored code, selecting a language installs its template. *)
Lemma select_language_without_stored_code (i : Instance) (value : Language) :
  deps_current i ->
  orElse (initialStoredCode (i_props i)) (defaultCode value) = defaultCode value ->
  let s' := i_state (step i (SelectLanguage value)).1 in
  language s' = value /\ code s' = defaultCode value.
Proof.
  intros Hd Hn. destruct (select_language_code i value Hd) as [Hl Hc].
  cbv zeta. split; [exact Hl|]. rewrite Hc, Hn. now destruct (decide _).
Qed.

(** C1: selecting a language is meant to leave the editor with that
    language's template.  With stored code supplied at mount it does not:
    mounted with [initialStoredCode = "print(1)"], selecting java leaves the
    editor with ["print(1)"], because the effect runs again on the language
    change and overrides what [handleLanguageChange] wrote. *)
Theorem C1_language_change_restores_stored_code :
  let i := mount (mkProps "q1" (SText "print(1)")) (mkTestStatus 1) in
  let r := step i (SelectLanguage java) in
  r.2 = [ SetLanguage java; SetCode (defaultCode java); SetCode "print(1)" ] /\
  language (i_state r.1) = java /\
  code (i_state r.1) = "print(1)" /\
  code (i_state r.1) <> defaultCode java.
Proof. cbv zeta. repeat split. discriminate. Qed.

(** ** Submitting *)

(** C2: a click on the submit button while [isSubmitting] is true does
    nothing: the instance is unchanged and nothing is called, so no request
    is sent. *)
Theorem C2_submit_while_submitting_is_noop (i : Instance) :
  isSubmitting (i_state i) = true ->
  step i ClickSubmit = (i, []) /\
  filter is_fetch (step i ClickSubmit).2 = [] /\
  forall n, run i (repeat ClickSubmit n) = (i, []).
Proof.
  intros Hs.
  assert (H : step i ClickSubmit = (i, [])) by (simpl; now rewrite Hs).
  split; [exact H|]. split; [now rewrite H|].
  induction n as [|n IH]; [reflexivity|].
  change (repeat ClickSubmit (S n)) with (ClickSubmit :: repeat ClickSubmit n).
  cbn [run]. rewrite H, IH. reflexivity.
Qed.

Lemma C2_submit_while_submitting_is_noop_witness :
  let i := (step (mount (mkProps "q1" SNull) (mkTestStatus 1)) ClickSubmit).1 in
  isSubmitting (i_state i) = true /\
  step i ClickSubmit = (i, []).
Proof.
  cbv zeta. split; [reflexivity|].
  apply (C2_submit_while_submitting_is_noop
           (step (mount (mkProps "q1" SNull) (mkTestStatus 1)) ClickSubmit).1).
  reflexivity.
Defined.

(** C3: whatever the outcome of the request, [setIsSubmitting(false)] is the
    last call of [handleSubmit], and the flag is down afterwards. *)
Theorem C3_end_submit_on_every_path (i : Instance) (pd : Pending)
    (rest : list Pending) (o : FetchOutcome) :
  reachable i -> i_inflight i = pd :: rest ->
  let r := step i (RequestSettles o) in
  r.2 = handleSubmit_resume (p_testStatus pd) (p_state pd) o /\
  last r.2 = Some (SetIsSubmitting false) /\
  isSubmitting (i_state r.1) = false.
Proof.
  intros Hr Hfl. cbv zeta.
  rewrite (step_settle i pd rest o (reachable_deps_current i Hr) Hfl). simpl.
  destruct (resume_ends_with_finally (p_testStatus pd) (p_state pd) o) as [l ->].
  split; [reflexivity|]. split; [apply last_snoc|].
  now rewrite apply_actions_app.
Qed.

Lemma C3_end_submit_on_every_path_witness :
  last (step (submitted attempts_left) (RequestSettles Rejected)).2
    = Some (SetIsSubmitting false).
Proof.
  refine (proj1 (proj2 (C3_end_submit_on_every_path (submitted attempts_left)
            (mkPending sample_props attempts_left (initial_state sample_props))
            [] Rejected _ _))).
  - exists sample_props, attempts_left, [ClickSubmit]. reflexivity.
  - reflexivity.
Defined.

(** C4: a response that is not [ok], and an [ok] response whose body carries
    a non-empty [error] string, both log the destructive toast, open the
    error dialog and lower the flag, and nothing else: the editor's code and
    the selected language are what they were. *)
Theorem C4_failure_opens_error_dialog (i : Instance) (pd : Pending)
    (rest : list Pending) (o : FetchOutcome) :
  reachable i -> i_inflight i = pd :: rest ->
  (exists body, o = Responded false body) \/
  (exists data msg, o = Responded true (Some data) /\
                    getProp data "error" = Some (JStr msg) /\ msg <> "") ->
  let r := step i (RequestSettles o) in
  r.2 = failure_log /\
  showErrorDialog (i_state r.1) = true /\
  code (i_state r.1) = code (i_state i) /\
  language (i_state r.1) = language (i_state i).
Proof.
  intros Hr Hfl Ho. cbv zeta.
  rewrite (step_settle i pd rest o (reachable_deps_current i Hr) Hfl).
  assert (Hlog : handleSubmit_resume (p_testStatus pd) (p_state pd) o = failure_log).
  { destruct Ho as [[body ->] | (data & msg & -> & He & Hne)].
    - apply resume_not_ok.
    - apply (resume_error _ _ data (JStr msg) He). simpl.
      destruct (String.eqb_spec msg ""); [contradiction|reflexivity]. }
  rewrite Hlog. simpl. auto.
Qed.

Lemma C4_failure_opens_error_dialog_witness :
  let r := step (submitted attempts_left)
                (RequestSettles (Responded true (Some error_body))) in
  r.2 = failure_log /\
  showErrorDialog (i_state r.1) = true /\
  code (i_state r.1) = "print(1)" /\
  language (i_state r.1) = python.
Proof.
  refine (C4_failure_opens_error_dialog (submitted attempts_left)
            (mkPending sample_props attempts_left (initial_state sample_props))
            [] (Responded true (Some error_body)) _ _ _).
  - exists sample_props, attempts_left, [ClickSubmit]. reflexivity.
  - reflexivity.
  - right. exists error_body, "timeout".
    split; [reflexivity|]. split; [reflexivity|discriminate].
Defined.

(** C5: an advance response is meant to reset the editor to the default
    template of the currently selected language.  When the selection changes
    while the request is in flight it does not: submit under python, select
    java, then the advance response arrives, and the resumed handler, which
    still holds the language of the click, installs the python template
    although java is the selected language. *)
Lemma C5_in_flight_language_change_counterexample :
  let r := run (mount (mkProps "q1" SUndefined) attempts_left)
               [ ClickSubmit; SelectLanguage java;
                 RequestSettles (Responded true (Some advance_body)) ] in
  language (i_state r.1) = java /\
  code (i_state r.1) = defaultCode python /\
  code (i_state r.1) <> defaultCode (language (i_state r.1)).
Proof. vm_compute. repeat split. discriminate. Qed.

(** What an advance response does in general: for a submission whose [ok]
    response has a falsy [error], a falsy [isComplete] and a truthy
    [nextQuestion], the editor gets the default template of the language of
    the click, whatever happened while the request was in flight, and
    [onQuestionChange] is called exactly once, with that [nextQuestion].
    The handler leaves the selection as it finds it, so when the selection
    is still the one of the click the editor holds the template of the
    currently selected language. *)
Theorem advance_resets_editor (i : Instance) (mid : list Event)
    (data e c q : JsVal) :
  reachable i -> isSubmitting (i_state i) = false ->
  forallb (fun ev => negb (is_settle ev)) mid = true ->
  getProp data "error" = Some e -> truthy e = false ->
  getProp data "isComplete" = Some c -> truthy c = false ->
  getProp data "nextQuestion" = Some q -> truthy q = true ->
  let before := run i (ClickSubmit :: mid) in
  let r := run i (ClickSubmit :: mid ++
                  [RequestSettles (Responded true (Some data))]) in
  code (i_state r.1) = defaultCode (language (i_state i)) /\
  filter is_on_question_change r.2 = [OnQuestionChange q] /\
  language (i_state r.1) = language (i_state before.1) /\
  (language (i_state before.1) = language (i_state i) ->
   code (i_state r.1) = defaultCode (language (i_state r.1))).
Proof.
  intros Hr Hs Hmid He Hte Hc Htc Hq Htq. cbv zeta.
  destruct (submit_invocation i mid (Responded true (Some data)) Hr Hs Hmid)
    as (_ & _ & Hno & Hst & Hlog).
  rewrite (resume_success _ _ data e c q He Hte Hc Hq), Htc, Htq in Hst, Hlog.
  rewrite Hst, Hlog, filter_app, Hno.
  split; [reflexivity|]. split; [reflexivity|]. split; [reflexivity|].
  intros <-. reflexivity.
Qed.

Lemma advance_resets_editor_witness :
  let r := run (mount sample_props attempts_left)
               [ ClickSubmit; EditorChange (Some "print(2)");
                 RequestSettles (Responded true (Some advance_body)) ] in
  code (i_state r.1) = defaultCode python /\
  filter is_on_question_change r.2
    = [OnQuestionChange (JObj {[ "id" := JStr "q2" ]})].
Proof.
  pose proof (advance_resets_editor (mount sample_props attempts_left)
                [EditorChange (Some "print(2)")] advance_body
                JUndefined (JBool false) (JObj {[ "id" := JStr "q2" ]})
                (reachable_mount _ _) eq_refl eq_refl
                eq_refl eq_refl eq_refl eq_refl eq_refl eq_refl) as H.
  cbv zeta in H. destruct H as (H1 & H2 & _). split; [exact H1 | exact H2].
Defined.

(** An [ok] response with a falsy [error] and a truthy [isComplete],
    handled by a render that saw [attemptsRemaining = 0]: no dialog flag is
    written, [markTestAsCompleted] is called once and the router is pushed
    once, to ["/test-complete"]. *)
Theorem complete_without_attempts_at_click (i : Instance) (pd : Pending)
    (rest : list Pending) (data e c : JsVal) :
  reachable i -> i_inflight i = pd :: rest ->
  attemptsRemaining (p_testStatus pd) = 0 ->
  getProp data "error" = Some e -> truthy e = false ->
  getProp data "isComplete" = Some c -> truthy c = true ->
  let r := step i (RequestSettles (Responded true (Some data))) in
  r.2 = [ ShowToast "Code submitted successfully" "default";
          MarkTestAsCompleted; RouterPush "/test-complete";
          SetIsSubmitting false ] /\
  filter is_dialog_setter r.2 = [] /\
  filter is_mark_completed r.2 = [MarkTestAsCompleted] /\
  filter is_router_push r.2 = [RouterPush "/test-complete"] /\
  showErrorDialog (i_state r.1) = showErrorDialog (i_state i) /\
  showReattemptDialog (i_state r.1) = showReattemptDialog (i_state i).
Proof.
  intros Hr Hfl Hz He Hte Hc Htc. cbv zeta.
  destruct (getProp_defined data "error" "nextQuestion" e He) as [q Hq].
  rewrite (step_settle i pd rest _ (reachable_deps_current i Hr) Hfl).
  rewrite (resume_success _ _ data e c q He Hte Hc Hq), Htc, Hz.
  repeat split.
Qed.

Lemma complete_without_attempts_at_click_witness :
  let r := step (submitted no_attempts_left)
                (RequestSettles (Responded true (Some complete_body))) in
  filter is_dialog_setter r.2 = [] /\
  filter is_mark_completed r.2 = [MarkTestAsCompleted] /\
  filter is_router_push r.2 = [RouterPush "/test-complete"].
Proof.
  pose proof (complete_without_attempts_at_click (submitted no_attempts_left)
                (mkPending sample_props no_attempts_left
                           (initial_state sample_props))
                [] complete_body JUndefined (JBool true)
                (submitted_reachable _) eq_refl eq_refl
                eq_refl eq_refl eq_refl eq_refl) as H.
  cbv zeta in H. destruct H as (_ & H1 & H2 & H3 & _). auto.
Defined.

(** C6: a session-complete response that arrives while
    [testStatus.attemptsRemaining] is 0 is meant to finish the test without
    a dialog.  When the auth context had 2 attempts at the click and has 0
    when the response arrives it does not: the resumed handler, which still
    holds the [testStatus] of the click, stores the response and opens the
    reattempt dialog, and calls neither [markTestAsCompleted] nor the
    router. *)
Theorem C6_stale_status_opens_reattempt_dialog :
  let before := run (mount sample_props attempts_left)
                    [ ClickSubmit; Rerender sample_props no_attempts_left ] in
  let r := step before.1 (RequestSettles (Responded true (Some complete_body))) in
  attemptsRemaining (i_testStatus before.1) = 0 /\
  attemptsRemaining (i_testStatus r.1) = 0 /\
  showReattemptDialog (i_state r.1) = true /\
  r.2 = [ ShowToast "Code submitted successfully" "default";
          SetSubmissionResponse complete_body; SetShowReattemptDialog true;
          SetIsSubmitting false ] /\
  filter is_mark_completed r.2 = [] /\
  filter is_router_push r.2 = [].
Proof. vm_compute. repeat split. Qed.



(** C10: an [ok] response whose body has a falsy [error], a falsy
    [isComplete] and a falsy [nextQuestion] logs the success toast and the
    lowering of the flag, and nothing else: no dialog flag is written,
    neither callback prop is called, and code and language stay as they
    were. *)
Theorem C10_empty_success_changes_nothing (i : Instance) (pd : Pending)
    (rest : list Pending) (data e c q : JsVal) :
  reachable i -> i_inflight i = pd :: rest ->
  getProp data "error" = Some e -> truthy e = false ->
  getProp data "isComplete" = Some c -> truthy c = false ->
  getProp data "nextQuestion" = Some q -> truthy q = false ->
  let r := step i (RequestSettles (Responded true (Some data))) in
  r.2 = [ ShowToast "Code submitted successfully" "default";
          SetIsSubmitting false ] /\
  filter is_dialog_setter r.2 = [] /\
  filter is_on_question_change r.2 = [] /\
  filter is_on_test_complete r.2 = [] /\
  code (i_state r.1) = code (i_state i) /\
  language (i_state r.1) = language (i_state i) /\
  showErrorDialog (i_state r.1) = showErrorDialog (i_state i) /\
  showReattemptDialog (i_state r.1) = showReattemptDialog (i_state i) /\
  isSubmitting (i_state r.1) = false.
Proof.
  intros Hr Hfl He Hte Hc Htc Hq Htq. cbv zeta.
  rewrite (step_settle i pd rest _ (reachable_deps_current i Hr) Hfl).
  rewrite (resume_success _ _ data e c q He Hte Hc Hq), Htc, Htq.
  repeat split.
Qed.

Lemma C10_empty_success_changes_nothing_witness :
  let r := step (submitted attempts_left)
                (RequestSettles (Responded true (Some bare_body))) in
  r.2 = [ ShowToast "Code submitted successfully" "default";
          SetIsSubmitting false ] /\
  code (i_state r.1) = "print(1)" /\
  isSubmitting (i_state r.1) = false.
Proof.
  pose proof (C10_empty_success_changes_nothing (submitted attempts_left)
                (mkPending sample_props attempts_left
                           (initial_state sample_props))
                [] bare_body JUndefined (JBool false) JUndefined
                (submitted_reachable _) eq_refl
                eq_refl eq_refl eq_refl eq_refl eq_refl eq_refl) as H.
  cbv zeta in H. destruct H as (H1 & _ & _ & _ & H2 & _ & _ & _ & H3).
  auto.
Defined.

(** ** The reattempt dialog *)

(** Apart from a settling request, and from the dialog library reporting an
    opening (which it has no occasion to do: the dialog has no trigger
    element), no event raises the reattempt flag. *)
Lemma reattempt_flag_not_raised (i : Instance) (ev : Event) :
  is_settle ev = false ->
  ev <> ReattemptDialogOpenChange true ->
  showReattemptDialog (i_state i) = false ->
  showReattemptDialog (i_state (step i ev).1) = false.
Proof.
  intros Hev Hlib Hclosed.
  destruct ev as [v|v| |o|b| |b| | |p' ts']; try discriminate; cbn [step];
    rewrite ?Hclosed; cbn [andb];
    repeat match goal with
           | |- context [if ?b then _ else _] => destruct b
           end;
    try assumption;
    match goal with
    | |- context [react ?k ?acts ?fl] =>
        pose proof (react_frame k acts fl) as (_ & _ & _ & Hf & _);
        rewrite Hf; try destruct v; try destruct b; simpl;
        congruence
    end.
Qed.

(** The component itself opens the reattempt dialog in one way only: a
    request settles with a truthy [isComplete], handled by a render that saw
    attempts remaining. *)
Lemma reattempt_dialog_origin (i : Instance) (ev : Event) :
  reachable i ->
  ev <> ReattemptDialogOpenChange true ->
  showReattemptDialog (i_state i) = false ->
  showReattemptDialog (i_state (step i ev).1) = true ->
  exists pd rest data c,
    i_inflight i = pd :: rest /\
    ev = RequestSettles (Responded true (Some data)) /\
    getProp data "isComplete" = Some c /\ truthy c = true /\
    0 < attemptsRemaining (p_testStatus pd).
Proof.
  intros Hr Hlib Hclosed Hopen.
  pose proof (reachable_deps_current i Hr) as Hd.
  destruct (is_settle ev) eqn:Hev.
  2: { rewrite (reattempt_flag_not_raised i ev Hev Hlib Hclosed) in Hopen.
       discriminate. }
  destruct ev as [| | |o| | | | | |]; try discriminate.
  destruct (i_inflight i) as [|pd rest] eqn:Hfl.
  { cbn [step] in Hopen. rewrite Hfl in Hopen. simpl in Hopen. congruence. }
  rewrite (step_settle i pd rest o Hd Hfl) in Hopen. simpl in Hopen.
  revert Hopen.
  settle_cases (p_testStatus pd) (p_state pd) o; simpl; try congruence.
  all: intros _; exists pd, rest, data, c; repeat split; auto;
    now apply Z.ltb_lt.
Qed.

(** C7 as written fails when the editor changes while the request is in
    flight: ["print(1)"] is submitted, the user types ["print(2)"], the
    session-complete response opens the dialog, and Reattempt hands
    ["print(2)"] to [onTestComplete], not the code that was submitted. *)
Lemma C7_in_flight_edit_counterexample :
  let r := run (mount sample_props attempts_left)
               [ ClickSubmit; EditorChange (Some "print(2)");
                 RequestSettles (Responded true (Some complete_body));
                 ClickReattempt ] in
  filter is_fetch r.2
    = [Fetch "/api/coding-problem" "POST" (mkRequest "q1" "print(1)" python)] /\
  filter is_on_test_complete r.2 = [OnTestComplete true "print(2)"] /\
  "print(2)" <> "print(1)".
Proof. vm_compute. repeat split. discriminate. Qed.

(** C7, amended: while the reattempt dialog is open and attempts remain,
    Reattempt closes the dialog and calls [onTestComplete(true, code)] with
    the code the editor holds at that moment; Finish Test calls
    [markTestAsCompleted], pushes ["/test-complete"] and does not call
    [onTestComplete]. *)
Theorem C7_reattempt_dialog_choices (i : Instance) :
  reachable i ->
  showReattemptDialog (i_state i) = true ->
  0 < attemptsRemaining (i_testStatus i) ->
  let reattempt := step i ClickReattempt in
  let finish := step i ClickFinishTest in
  reattempt.2 = [ SetShowReattemptDialog false;
                  OnTestComplete true (code (i_state i)) ] /\
  showReattemptDialog (i_state reattempt.1) = false /\
  finish.2 = [ MarkTestAsCompleted; RouterPush "/test-complete" ] /\
  filter is_on_test_complete finish.2 = [].
Proof.
  intros Hr Hopen Hpos. cbv zeta.
  pose proof (reachable_deps_current i Hr) as Hd.
  apply Z.ltb_lt in Hpos. cbn [step]. rewrite Hopen, Hpos. cbn [andb].
  rewrite !react_quiet by (exact Hd || reflexivity).
  repeat split.
Qed.

(** When nothing happens between the click on submit and the choice, the
    code handed to [onTestComplete] is the code that was submitted. *)
Lemma reattempt_passes_submitted_code (i : Instance) (data e c : JsVal) :
  reachable i -> isSubmitting (i_state i) = false ->
  0 < attemptsRemaining (i_testStatus i) ->
  getProp data "error" = Some e -> truthy e = false ->
  getProp data "isComplete" = Some c -> truthy c = true ->
  let r := run i [ ClickSubmit;
                   RequestSettles (Responded true (Some data));
                   ClickReattempt ] in
  filter is_fetch r.2
    = [Fetch "/api/coding-problem" "POST"
             (mkRequest (currentQuestionId (i_props i)) (code (i_state i))
                        (language (i_state i)))] /\
  filter is_on_test_complete r.2 = [OnTestComplete true (code (i_state i))] /\
  showReattemptDialog (i_state r.1) = false.
Proof.
  intros Hr Hs Hpos He Hte Hc Htc. cbv zeta.
  pose proof (reachable_deps_current i Hr) as Hd.
  destruct (getProp_defined data "error" "nextQuestion" e He) as [q Hq].
  assert (Hfl : i_inflight i = []).
  { destruct (at_most_one_in_flight i Hr) as [[_ H]|[H _]]; [exact H|congruence]. }
  apply Z.ltb_lt in Hpos.
  rewrite run_cons, (step_click_submit i Hd Hs), Hfl. cbn [fst snd app].
  rewrite run_cons. erewrite step_settle; [|exact Hd|reflexivity].
  cbn [fst snd p_testStatus p_state].
  rewrite (resume_success _ _ data e c q He Hte Hc Hq), Htc, Hpos.
  rewrite run_cons. cbn [step i_state i_testStatus]. simpl apply_actions.
  cbn [showReattemptDialog andb]. rewrite Hpos.
  rewrite react_quiet by (exact Hd || reflexivity).
  repeat split.
Qed.

Lemma C7_reattempt_dialog_choices_witness :
  let i := (run (mount sample_props attempts_left)
                [ ClickSubmit;
                  RequestSettles (Responded true (Some complete_body)) ]).1 in
  (step i ClickReattempt).2
    = [ SetShowReattemptDialog false; OnTestComplete true "print(1)" ] /\
  (step i ClickFinishTest).2
    = [ MarkTestAsCompleted; RouterPush "/test-complete" ].
Proof.
  pose proof (C7_reattempt_dialog_choices
                (run (mount sample_props attempts_left)
                     [ ClickSubmit;
                       RequestSettles (Responded true (Some complete_body)) ]).1)
    as H.
  cbv zeta in H. destruct H as (H1 & _ & H2 & _).
  - exists sample_props, attempts_left,
      [ ClickSubmit; RequestSettles (Responded true (Some complete_body)) ].
    reflexivity.
  - reflexivity.
  - reflexivity.
  - split; [exact H1 | exact H2].
Defined.

(** ** Further properties of the component *)

(** Record eta for instances. *)
Lemma instance_eta (i : Instance) :
  mkInstance (i_props i) (i_testStatus i) (i_state i) (i_deps i) (i_inflight i) = i.
Proof. now destruct i. Qed.

(** In every state the component can reach there is at most one request in
    flight, the flag is up exactly while there is one, and the submit button
    reads "Submitting..." exactly then. *)
Theorem single_request_in_flight (i : Instance) :
  reachable i ->
  (length (i_inflight i) <= 1)%nat /\
  (isSubmitting (i_state i) = true <-> i_inflight i <> []) /\
  (submit_label (i_state i) = "Submitting..." <-> i_inflight i <> []).
Proof.
  intros Hr. unfold submit_label.
  destruct (at_most_one_in_flight i Hr) as [[Hs Hfl]|[Hs [pd Hfl]]];
    rewrite Hs, Hfl; simpl; repeat split; intros; try lia; congruence.
Qed.

Lemma single_request_in_flight_witness :
  (length (i_inflight (submitted attempts_left)) <= 1)%nat /\
  submit_label (i_state (submitted attempts_left)) = "Submitting...".
Proof.
  destruct (single_request_in_flight (submitted attempts_left)) as (H1 & _ & H3).
  - exists sample_props, attempts_left, [ClickSubmit]. reflexivity.
  - split; [exact H1|]. apply H3. discriminate.
Defined.

(** One step keeps the books: requests sent plus requests that were in
    flight equal requests finished plus requests still in flight. *)
Lemma step_conservation (i : Instance) (e : Event) :
  reachable i ->
  (length (filter is_fetch (step i e).2) + length (i_inflight i) =
   length (filter is_end_submit (step i e).2) + length (i_inflight (step i e).1))%nat.
Proof.
  intros Hr. pose proof (reachable_deps_current i Hr) as Hd.
  destruct e as [v|v| |o|b| |b| | |p' ts'].
  3: { destruct (isSubmitting (i_state i)) eqn:Hs.
       - cbn [step]. rewrite Hs. reflexivity.
       - rewrite (step_click_submit i Hd Hs). cbn [fst snd i_inflight].
         rewrite length_app. simpl. lia. }
  3: { destruct (i_inflight i) as [|pd rest] eqn:Hfl.
       - cbn [step]. rewrite Hfl. simpl. now rewrite Hfl.
       - rewrite (step_settle i pd rest o Hd Hfl). cbn [fst snd i_inflight].
         settle_cases (p_testStatus pd) (p_state pd) o; simpl; lia. }
  all: cbn [step];
    repeat match goal with
           | |- context [if ?b then _ else _] => destruct b
           end;
    try reflexivity;
    match goal with
    | |- context [react ?k ?acts ?fl] =>
        pose proof (react_props k acts fl) as (_ & _ & Hp);
        rewrite Hp; rewrite (react_spec k acts fl); cbv zeta;
        destruct (decide _); try destruct v; simpl; lia
    end.
Qed.

(** Over any sequence of events from mount, every request sent is either
    finished (its [finally] block has run) or still in flight, and at most
    one is in flight: a request is never sent before the previous one was
    finished. *)
Theorem requests_sent_and_finished (p : Props) (ts : TestStatus)
    (evs : list Event) :
  let r := run (mount p ts) evs in
  length (filter is_fetch r.2) =
    (length (filter is_end_submit r.2) + length (i_inflight r.1))%nat /\
  (length (filter is_fetch r.2) <= length (filter is_end_submit r.2) + 1)%nat.
Proof.
  cbv zeta.
  assert (H : length (filter is_fetch (run (mount p ts) evs).2) =
              (length (filter is_end_submit (run (mount p ts) evs).2) +
               length (i_inflight (run (mount p ts) evs).1))%nat).
  { induction evs as [|e evs IH] using rev_ind; [reflexivity|].
    rewrite run_snoc. cbn [fst snd]. rewrite !filter_app, !length_app.
    pose proof (step_conservation (run (mount p ts) evs).1 e
                  (reachable_run _ evs (reachable_mount p ts))).
    lia. }
  split; [exact H|].
  destruct (single_request_in_flight (run (mount p ts) evs).1
              (reachable_run _ evs (reachable_mount p ts))) as (Hle & _).
  lia.
Qed.

(** The editor's [onChange]: [undefined] is ignored; a string, the empty one
    included, becomes the code, stays (the effect does not run) and nothing
    else changes. *)
Theorem editor_change_replaces_code (i : Instance) (v : string) :
  reachable i ->
  let r := step i (EditorChange (Some v)) in
  step i (EditorChange None) = (i, []) /\
  r.2 = [SetCode v] /\
  code (i_state r.1) = v /\
  language (i_state r.1) = language (i_state i) /\
  isSubmitting (i_state r.1) = isSubmitting (i_state i) /\
  showErrorDialog (i_state r.1) = showErrorDialog (i_state i) /\
  showReattemptDialog (i_state r.1) = showReattemptDialog (i_state i) /\
  submissionResponse (i_state r.1) = submissionResponse (i_state i) /\
  i_inflight r.1 = i_inflight i.
Proof.
  intros Hr. cbv zeta. pose proof (reachable_deps_current i Hr) as Hd.
  cbn [step]. rewrite !react_quiet by (exact Hd || reflexivity).
  simpl. rewrite instance_eta. repeat split.
Qed.

Lemma editor_change_replaces_code_witness :
  code (i_state (step (submitted attempts_left) (EditorChange (Some ""))).1) = "".
Proof.
  apply (editor_change_replaces_code (submitted attempts_left) "").
  exists sample_props, attempts_left, [ClickSubmit]. reflexivity.
Defined.

(** A re-render from outside.  As long as [initialStoredCode] is the same
    value, the editor keeps what it holds, whatever else changed.  When the
    parent hands in another [initialStoredCode], the effect replaces the
    editor's content, edits included, by the new stored code, or by the
    template of the selected language when the new value is absent, [null]
    or empty; nothing but the props, the auth context and the code
    changes. *)
Theorem stored_code_change_resets_editor (i : Instance) (p' : Props)
    (ts' : TestStatus) :
  reachable i ->
  let r := step i (Rerender p' ts') in
  i_props r.1 = p' /\ i_testStatus r.1 = ts' /\
  i_inflight r.1 = i_inflight i /\
  language (i_state r.1) = language (i_state i) /\
  isSubmitting (i_state r.1) = isSubmitting (i_state i) /\
  showErrorDialog (i_state r.1) = showErrorDialog (i_state i) /\
  showReattemptDialog (i_state r.1) = showReattemptDialog (i_state i) /\
  (initialStoredCode p' = initialStoredCode (i_props i) ->
   i_state r.1 = i_state i /\ r.2 = []) /\
  (initialStoredCode p' <> initialStoredCode (i_props i) ->
   code (i_state r.1) =
     orElse (initialStoredCode p') (defaultCode (language (i_state i))) /\
   r.2 = [SetCode (orElse (initialStoredCode p')
                          (defaultCode (language (i_state i))))]).
Proof.
  intros Hr. cbv zeta. pose proof (reachable_deps_current i Hr) as Hd.
  cbn [step]. rewrite react_spec. cbv zeta. cbn [i_props i_state i_deps].
  rewrite Hd. simpl apply_actions.
  destruct (decide _) as [E|E]; cbn [fst snd i_props i_testStatus i_inflight i_state].
  - do 7 (split; [reflexivity|]). split.
    + intros _. now split.
    + intros Hne. congruence.
  - do 7 (split; [reflexivity|]). split.
    + intros Heq. congruence.
    + intros _. now split.
Qed.

Lemma stored_code_change_resets_editor_witness :
  let i := (step (mount sample_props attempts_left)
                 (EditorChange (Some "print(2)"))).1 in
  code (i_state (step i (Rerender (mkProps "q2" SNull) attempts_left)).1)
    = defaultCode python /\
  code (i_state (step i (Rerender (mkProps "q2" (SText "print(1)"))
                                  attempts_left)).1)
    = "print(2)".
Proof.
  cbv zeta.
  assert (Hr : reachable (step (mount sample_props attempts_left)
                               (EditorChange (Some "print(2)"))).1).
  { exists sample_props, attempts_left, [EditorChange (Some "print(2)")].
    reflexivity. }
  split.
  - pose proof (stored_code_change_resets_editor _ (mkProps "q2" SNull)
                  attempts_left Hr) as H.
    cbv zeta in H. destruct H as (_ & _ & _ & _ & _ & _ & _ & _ & H).
    destruct H as [H _]; [discriminate | exact H].
  - pose proof (stored_code_change_resets_editor _
                  (mkProps "q2" (SText "print(1)")) attempts_left Hr) as H.
    cbv zeta in H. destruct H as (_ & _ & _ & _ & _ & _ & _ & H & _).
    destruct H as [H _]; [reflexivity | now rewrite H].
Defined.

(** The handler of a settled request takes the failure path (destructive
    toast, error dialog, flag lowered, nothing else) exactly when the [try]
    block throws: on a rejected fetch, a response that is not [ok], a body
    that does not parse, a [null] body, or a truthy [error] of any type.  On
    that path neither the auth context, nor the router, nor a callback prop
    is called. *)
Theorem failure_path_characterised (ts : TestStatus) (s : State)
    (o : FetchOutcome) :
  (handleSubmit_resume ts s o = failure_log <-> throws o) /\
  (throws o ->
   forall s', let s'' := apply_actions s' (handleSubmit_resume ts s o) in
     showErrorDialog s'' = true /\ isSubmitting s'' = false /\
     code s'' = code s' /\ language s'' = language s' /\
     showReattemptDialog s'' = showReattemptDialog s' /\
     submissionResponse s'' = submissionResponse s').
Proof.
  assert (Hthrows : throws o -> handleSubmit_resume ts s o = failure_log).
  { intros [->|[[body ->]|[->|[(data & -> & He)|(data & e & -> & He & Hte)]]]].
    - reflexivity.
    - reflexivity.
    - reflexivity.
    - now apply resume_type_error.
    - now apply (resume_error ts s data e). }
  split; [split; [|exact Hthrows]|].
  - intros Hlog. destruct o as [|[] [data|]].
    + now left.
    + destruct (getProp data "error") as [e|] eqn:He.
      * destruct (truthy e) eqn:Hte.
        -- do 4 right. now exists data, e.
        -- destruct (getProp_defined data "error" "isComplete" e He) as [c Hc].
           destruct (getProp_defined data "error" "nextQuestion" e He) as [q Hq].
           rewrite (resume_success ts s data e c q He Hte Hc Hq) in Hlog.
           discriminate Hlog.
      * do 3 right. left. now exists data.
    + do 2 right. now left.
    + right. left. now exists (Some data).
    + right. left. now exists None.
  - intros Ho s'. rewrite (Hthrows Ho). cbv zeta. simpl. repeat split.
Qed.

Lemma failure_path_characterised_witness :
  handleSubmit_resume attempts_left (initial_state sample_props)
    (Responded true (Some JNull)) = failure_log.
Proof.
  apply (failure_path_characterised attempts_left (initial_state sample_props)
           (Responded true (Some JNull))).
  do 3 right. left. exists JNull. split; reflexivity.
Defined.

(** A session-complete response (falsy [error], truthy [isComplete]) does
    exactly one of two things, decided by the [attemptsRemaining] the
    handler read.  Positive: the response is stored, the reattempt dialog
    opens, and neither [markTestAsCompleted] nor the router is called.
    Zero or negative: [markTestAsCompleted] and the push to
    ["/test-complete"], and no state but the flag is written.  Either way
    code and language stay and the flag ends lowered. *)
Theorem completion_offers_reattempt_or_finishes (i : Instance) (pd : Pending)
    (rest : list Pending) (data e c : JsVal) :
  reachable i -> i_inflight i = pd :: rest ->
  getProp data "error" = Some e -> truthy e = false ->
  getProp data "isComplete" = Some c -> truthy c = true ->
  let r := step i (RequestSettles (Responded true (Some data))) in
  code (i_state r.1) = code (i_state i) /\
  language (i_state r.1) = language (i_state i) /\
  isSubmitting (i_state r.1) = false /\
  (0 < attemptsRemaining (p_testStatus pd) ->
   r.2 = [ ShowToast "Code submitted successfully" "default";
           SetSubmissionResponse data; SetShowReattemptDialog true;
           SetIsSubmitting false ] /\
   showReattemptDialog (i_state r.1) = true /\
   submissionResponse (i_state r.1) = data) /\
  (attemptsRemaining (p_testStatus pd) <= 0 ->
   r.2 = [ ShowToast "Code submitted successfully" "default";
           MarkTestAsCompleted; RouterPush "/test-complete";
           SetIsSubmitting false ] /\
   showReattemptDialog (i_state r.1) = showReattemptDialog (i_state i) /\
   submissionResponse (i_state r.1) = submissionResponse (i_state i)).
Proof.
  intros Hr Hfl He Hte Hc Htc. cbv zeta.
  destruct (getProp_defined data "error" "nextQuestion" e He) as [q Hq].
  rewrite (step_settle i pd rest _ (reachable_deps_current i Hr) Hfl).
  rewrite (resume_success _ _ data e c q He Hte Hc Hq), Htc.
  destruct (Z.ltb_spec 0 (attemptsRemaining (p_testStatus pd))) as [Hpos|Hnp];
    cbn [fst snd i_state]; simpl.
  - do 3 (split; [reflexivity|]). split; [intros _; now repeat split|].
    intros Hle. lia.
  - do 3 (split; [reflexivity|]). split; [intros Hlt; lia|].
    intros _. now repeat split.
Qed.

Lemma completion_offers_reattempt_or_finishes_witness :
  let r := step (submitted attempts_left)
                (RequestSettles (Responded true (Some complete_body))) in
  showReattemptDialog (i_state r.1) = true /\
  submissionResponse (i_state r.1) = complete_body.
Proof.
  pose proof (completion_offers_reattempt_or_finishes (submitted attempts_left)
                (mkPending sample_props attempts_left
                           (initial_state sample_props))
                [] complete_body JUndefined (JBool true)
                (submitted_reachable _) eq_refl eq_refl eq_refl
                eq_refl eq_refl) as H.
  cbv zeta in H. destruct H as (_ & _ & _ & H & _).
  destruct H as (_ & H1 & H2); [reflexivity|]. split; [exact H1 | exact H2].
Defined.



(** The component opens the reattempt dialog in one situation only: a
    request settles [ok] with a truthy [isComplete], and the render that
    sent it saw attempts remaining. *)
Theorem reattempt_dialog_opens_only_on_completion (i : Instance) (ev : Event) :
  reachable i ->
  ev <> ReattemptDialogOpenChange true ->
  showReattemptDialog (i_state i) = false ->
  showReattemptDialog (i_state (step i ev).1) = true ->
  exists pd rest data c,
    i_inflight i = pd :: rest /\
    ev = RequestSettles (Responded true (Some data)) /\
    getProp data "isComplete" = Some c /\ truthy c = true /\
    0 < attemptsRemaining (p_testStatus pd).
Proof. exact (reattempt_dialog_origin i ev). Qed.

Lemma reattempt_dialog_opens_only_on_completion_witness :
  exists pd rest data c,
    i_inflight (submitted attempts_left) = pd :: rest /\
    RequestSettles (Responded true (Some complete_body))
      = RequestSettles (Responded true (Some data)) /\
    getProp data "isComplete" = Some c /\ truthy c = true /\
    0 < attemptsRemaining (p_testStatus pd).
Proof.
  apply (reattempt_dialog_opens_only_on_completion (submitted attempts_left)
           (RequestSettles (Responded true (Some complete_body)))).
  - exists sample_props, attempts_left, [ClickSubmit]. reflexivity.
  - discriminate.
  - reflexivity.
  - reflexivity.
Defined.

(** Every outcome on which the [try] block throws gives the failure log. *)
Lemma resume_throws (ts : TestStatus) (s : State) (o : FetchOutcome) :
  throws o -> handleSubmit_resume ts s o = failure_log.
Proof.
  intros [->|[[body ->]|[->|[(data & -> & He)|(data & e & -> & He & Hte)]]]];
    try reflexivity.
  - now apply resume_type_error.
  - now apply (resume_error ts s data e).
Qed.

(** A failed submission is undone by closing the error dialog: from a state
    with the button enabled and the error dialog closed, clicking submit,
    a failing outcome and a click on Close bring the component back to
    exactly the state it was in.  Along the way one POST is sent, carrying
    the question id, the code and the language of the moment of the
    click. *)
Theorem failed_submission_round_trip (i : Instance) (o : FetchOutcome) :
  reachable i ->
  isSubmitting (i_state i) = false ->
  showErrorDialog (i_state i) = false ->
  throws o ->
  run i [ClickSubmit; RequestSettles o; ClickCloseError] =
    (i, [ SetIsSubmitting true;
          Fetch "/api/coding-problem" "POST"
                (mkRequest (currentQuestionId (i_props i)) (code (i_state i))
                           (language (i_state i)));
          ShowToast "Failed to submit code. Please try again." "destructive";
          SetShowErrorDialog true; SetIsSubmitting false;
          SetShowErrorDialog false ]).
Proof.
  intros Hr Hs He Ho. pose proof (reachable_deps_current i Hr) as Hd.
  assert (Hfl : i_inflight i = []).
  { destruct (at_most_one_in_flight i Hr) as [[_ H]|[H _]]; [exact H|congruence]. }
  rewrite run_cons, (step_click_submit i Hd Hs), Hfl. cbn [fst snd app].
  rewrite run_cons. erewrite step_settle; [|exact Hd|reflexivity].
  cbn [fst snd p_testStatus p_state i_props i_testStatus i_state i_deps].
  rewrite (resume_throws _ _ o Ho).
  rewrite run_cons. cbn [step i_state]. simpl apply_actions.
  cbn [showErrorDialog]. rewrite react_quiet by (exact Hd || reflexivity).
  cbn [fst snd run]. f_equal.
  destruct i as [p ts s d fl]. destruct s. simpl in *. now subst.
Qed.

Lemma failed_submission_round_trip_witness :
  (run (mount sample_props attempts_left)
       [ClickSubmit; RequestSettles Rejected; ClickCloseError]).1
    = mount sample_props attempts_left.
Proof.
  rewrite (failed_submission_round_trip (mount sample_props attempts_left)
             Rejected (reachable_mount _ _) eq_refl eq_refl).
  - reflexivity.
  - now left.
Defined.

Lemma reattempt_passes_submitted_code_witness :
  let r := run (mount sample_props attempts_left)
               [ ClickSubmit;
                 RequestSettles (Responded true (Some complete_body));
                 ClickReattempt ] in
  filter is_on_test_complete r.2 = [OnTestComplete true "print(1)"].
Proof.
  pose proof (reattempt_passes_submitted_code
                (mount sample_props attempts_left) complete_body
                JUndefined (JBool true) (reachable_mount _ _) eq_refl
                eq_refl eq_refl eq_refl eq_refl eq_refl) as H.
  cbv zeta in H. destruct H as (_ & H & _). exact H.
Defined.

(** A click on Finish Test or on Reattempt Test, the dialog's closing
    included, writes the dialog flag and nothing else: the dialog is closed,
    every other state cell, the props, the auth context and the requests in
    flight are as before, and both choices leave the component in the same
    state.  Finish Test calls [markTestAsCompleted] and the router and never
    [onTestComplete]; Reattempt, offered while attempts remain, calls
    [onTestComplete] once and neither the auth context nor the router. *)
Theorem dialog_choice_writes_only_the_flag (i : Instance) :
  reachable i ->
  showReattemptDialog (i_state i) = true ->
  let closed :=
    mkInstance (i_props i) (i_testStatus i)
               (apply_action (i_state i) (SetShowReattemptDialog false))
               (i_deps i) (i_inflight i) in
  run i finish_test_click =
    (closed, [ MarkTestAsCompleted; RouterPush "/test-complete";
               SetShowReattemptDialog false ]) /\
  (0 < attemptsRemaining (i_testStatus i) ->
   run i reattempt_click =
     (closed, [ SetShowReattemptDialog false;
                OnTestComplete true (code (i_state i));
                SetShowReattemptDialog false ])).
Proof.
  intros Hr Hopen. cbv zeta. pose proof (reachable_deps_current i Hr) as Hd.
  unfold finish_test_click, reattempt_click. split.
  - rewrite run_cons. cbn [step]. rewrite Hopen.
    rewrite react_quiet by (exact Hd || reflexivity). cbn [fst snd].
    rewrite run_cons. cbn [step run fst snd i_inflight].
    rewrite react_quiet by (exact Hd || reflexivity). reflexivity.
  - intros Hpos. apply Z.ltb_lt in Hpos.
    rewrite run_cons. cbn [step]. rewrite Hopen, Hpos. cbn [andb].
    rewrite react_quiet by (exact Hd || reflexivity). cbn [fst snd].
    rewrite run_cons. cbn [step run fst snd i_inflight].
    rewrite react_quiet by (exact Hd || reflexivity). reflexivity.
Qed.

Lemma dialog_choice_writes_only_the_flag_witness :
  let i := (run (mount sample_props attempts_left)
                [ ClickSubmit;
                  RequestSettles (Responded true (Some complete_body)) ]).1 in
  showReattemptDialog (i_state (run i finish_test_click).1) = false /\
  (run i reattempt_click).1 = (run i finish_test_click).1.
Proof.
  cbv zeta.
  destruct (dialog_choice_writes_only_the_flag
              (run (mount sample_props attempts_left)
                   [ ClickSubmit;
                     RequestSettles (Responded true (Some complete_body)) ]).1
              (reachable_run _ _ (reachable_mount _ _)) eq_refl) as [Hf Ha].
  rewrite Hf, (Ha eq_refl). split; reflexivity.
Defined.

(** The tables: the selector offers every language exactly once, under
    distinct labels, and the default templates are non-empty and pairwise
    distinct, so a template tells which language it belongs to. *)
Theorem language_tables :
  (forall l, List.In l (map fst languages)) /\
  NoDup (map fst languages) /\ NoDup (map snd languages) /\
  (forall l, defaultCode l <> "") /\
  (forall l1 l2, defaultCode l1 = defaultCode l2 -> l1 = l2).
Proof.
  split; [intros l; destruct l; simpl; tauto|].
  split; [repeat constructor; rewrite ?list_elem_of_In; simpl;
          intuition discriminate|].
  split; [repeat constructor; rewrite ?list_elem_of_In; simpl;
          intuition discriminate|].
  split; [intros l; destruct l; discriminate|].
  intros l1 l2; destruct l1, l2; simpl; intros H;
    reflexivity || discriminate H.
Qed.

(** An event that keeps the auth context leaves it as it is, and a request
    put in flight carries the auth context of the instance. *)
Lemma keeps_status_step (ts : TestStatus) (i : Instance) (e : Event) :
  keeps_status ts e = true ->
  i_testStatus i = ts ->
  i_testStatus (step i e).1 = ts /\
  (Forall (fun pd => p_testStatus pd = ts) (i_inflight i) ->
   Forall (fun pd => p_testStatus pd = ts) (i_inflight (step i e).1)).
Proof.
  intros He Hts.
  destruct e as [v|v| |o|b| |b| | |p' ts']; try discriminate; cbn [step].
  4: { destruct (i_inflight i) as [|pd rest] eqn:Hfl.
       - split; [exact Hts|]. cbn [fst]. rewrite Hfl. auto.
       - pose proof (react_props i
                       (handleSubmit_resume (p_testStatus pd) (p_state pd) o)
                       rest) as (_ & H1 & H2).
         rewrite H1, H2. split; [exact Hts|]. intros HF.
         now inversion HF. }
  9: { pose proof (react_props (mkInstance p' ts' (i_state i) (i_deps i)
                                           (i_inflight i)) [] (i_inflight i))
         as (_ & H1 & H2).
       rewrite H1, H2. cbn [i_testStatus]. split; [|auto].
       simpl in He. apply Z.eqb_eq in He. destruct ts', ts. simpl in He.
       now subst. }
  all: repeat match goal with
              | |- context [if ?b then _ else _] => destruct b
              end;
    try (split; [exact Hts | tauto]);
    match goal with
    | |- context [react ?k ?acts ?fl] =>
        pose proof (react_props k acts fl) as (_ & H1 & H2);
        rewrite H1, H2; split; [exact Hts|]; intros HF; try exact HF
    end.
  apply Forall_app. split; [exact HF|]. repeat constructor. exact Hts.
Qed.

(** As long as the auth context does not change (the props may) and the
    dialog library does not open the dialog by itself, an open reattempt
    dialog always has attempts remaining: it shows the Reattempt Test button
    and the text that offers a reattempt, never "You have completed your
    test attempts.". *)
Theorem reattempt_offer_always_shown (p : Props) (ts : TestStatus)
    (evs : list Event) :
  forallb (keeps_status ts) evs = true ->
  let i := (run (mount p ts) evs).1 in
  showReattemptDialog (i_state i) = true ->
  i_testStatus i = ts /\
  reattempt_button_shown (i_testStatus i) = true /\
  reattempt_description (i_testStatus i) <> "You have completed your test attempts.".
Proof.
  intros Hevs. cbv zeta.
  assert (K : i_testStatus (run (mount p ts) evs).1 = ts /\
              Forall (fun pd => p_testStatus pd = ts)
                     (i_inflight (run (mount p ts) evs).1) /\
              (showReattemptDialog (i_state (run (mount p ts) evs).1) = true ->
               0 < attemptsRemaining ts)).
  { induction evs as [|e evs IH] using rev_ind.
    - simpl. split; [reflexivity|]. split; [constructor|discriminate].
    - rewrite forallb_app in Hevs. apply andb_prop in Hevs as [Hevs He].
      simpl in He. rewrite andb_true_r in He.
      destruct (IH Hevs) as (K1 & K2 & K3). clear IH.
      pose proof (reachable_run _ evs (reachable_mount p ts)) as Hr.
      rewrite run_snoc. cbn [fst].
      set (j := (run (mount p ts) evs).1) in *.
      destruct (keeps_status_step ts j e He K1) as [H1 H2].
      split; [exact H1|]. split; [exact (H2 K2)|].
      intros Hopen.
      destruct (showReattemptDialog (i_state j)) eqn:Hbefore; [now apply K3|].
      destruct (reattempt_dialog_origin j e Hr) as (pd & rest & _ & _ & Hfl & _ & _ & _ & Hpos);
        [intros ->; discriminate He | exact Hbefore | exact Hopen |].
      rewrite Hfl in K2. inversion K2 as [|? ? Hpd _]. now rewrite <- Hpd. }
  intros Hopen. destruct K as (K1 & _ & K3). specialize (K3 Hopen).
  rewrite K1. unfold reattempt_button_shown, reattempt_description.
  apply Z.ltb_lt in K3. rewrite K3.
  split; [reflexivity|]. split; [reflexivity|discriminate].
Qed.

Lemma reattempt_offer_always_shown_witness :
  reattempt_button_shown
    (i_testStatus
       (run (mount sample_props attempts_left)
            [ ClickSubmit; Rerender (mkProps "q2" SNull) attempts_left;
              RequestSettles (Responded true (Some complete_body)) ]).1) = true.
Proof.
  apply (reattempt_offer_always_shown sample_props attempts_left
           [ ClickSubmit; Rerender (mkProps "q2" SNull) attempts_left;
             RequestSettles (Responded true (Some complete_body)) ]).
  - reflexivity.
  - reflexivity.
Defined.

(** While the flag is up, no event but the settlement sends a request. *)
Lemma step_no_fetch_in_flight (i : Instance) (e : Event) :
  is_settle e = false -> isSubmitting (i_state i) = true ->
  filter is_fetch (step i e).2 = [].
Proof.
  intros He Hs.
  destruct e as [v|v| |o|b| |b| | |p' ts']; try discriminate; cbn [step];
    rewrite ?Hs;
    repeat match goal with
           | |- context [if ?b then _ else _] => destruct b
           end;
    try reflexivity;
    match goal with
    | |- context [react ?j ?acts ?fl] =>
        rewrite (react_spec j acts fl); cbv zeta;
        destruct (decide _); try destruct v; reflexivity
    end.
Qed.

Lemma run_no_fetch_in_flight (mid : list Event) :
  forall i,
    forallb (fun e => negb (is_settle e)) mid = true ->
    isSubmitting (i_state i) = true ->
    filter is_fetch (run i mid).2 = [].
Proof.
  induction mid as [|e mid IH]; intros i Hmid Hs; [reflexivity|].
  simpl in Hmid. apply andb_prop in Hmid as [He Hmid].
  apply negb_true_iff in He.
  rewrite run_cons. cbn [snd]. rewrite filter_app.
  rewrite (step_no_fetch_in_flight i e He Hs).
  destruct (step_in_flight i e He Hs) as (H1 & _).
  now rewrite (IH _ Hmid H1).
Qed.

(** The handler that resumes is the closure of the render that was clicked.
    Whatever happens between the click and the settlement (edits, language
    changes, dialog events, re-renders with other props or another auth
    context), the request carries the question id, code and language of the
    click, and the calls made on settlement are those the handler computes
    from the state and auth context of the click; they are applied to the
    state the component is in by then. *)
Theorem in_flight_events_do_not_reach_the_handler (i : Instance)
    (mid : list Event) (o : FetchOutcome) :
  reachable i -> isSubmitting (i_state i) = false ->
  forallb (fun e => negb (is_settle e)) mid = true ->
  let before := run i (ClickSubmit :: mid) in
  let r := run i (ClickSubmit :: mid ++ [RequestSettles o]) in
  let log := handleSubmit_resume (i_testStatus i) (i_state i) o in
  (exists l, before.2 =
     SetIsSubmitting true ::
     Fetch "/api/coding-problem" "POST"
           (mkRequest (currentQuestionId (i_props i)) (code (i_state i))
                      (language (i_state i))) :: l /\
     filter is_fetch l = []) /\
  r.2 = before.2 ++ log /\
  i_state r.1 = apply_actions (i_state before.1) log /\
  i_inflight r.1 = [].
Proof.
  intros Hr Hs Hmid. cbv zeta.
  destruct (submit_invocation i mid o Hr Hs Hmid) as (Hr' & Hfl & _ & Hst & Hlog).
  split; [|split; [exact Hlog|split; [exact Hst|]]].
  - rewrite run_cons.
    rewrite (step_click_submit i (reachable_deps_current i Hr) Hs).
    cbn [fst snd]. eexists. split; [reflexivity|].
    set (i1 := mkInstance _ _ _ _ _).
    exact (run_no_fetch_in_flight mid i1 Hmid eq_refl).
  - change (ClickSubmit :: mid ++ [RequestSettles o])
      with ((ClickSubmit :: mid) ++ [RequestSettles o]).
    rewrite run_snoc. cbn [fst].
    rewrite (step_settle _ _ [] o (reachable_deps_current _ Hr') Hfl).
    reflexivity.
Qed.

Lemma in_flight_events_do_not_reach_the_handler_witness :
  let r := run (mount sample_props attempts_left)
               [ ClickSubmit; SelectLanguage java;
                 Rerender (mkProps "q9" SNull) no_attempts_left;
                 RequestSettles (Responded true (Some complete_body)) ] in
  showReattemptDialog (i_state r.1) = true /\ i_inflight r.1 = [].
Proof.
  pose proof (in_flight_events_do_not_reach_the_handler
                (mount sample_props attempts_left)
                [ SelectLanguage java;
                  Rerender (mkProps "q9" SNull) no_attempts_left ]
                (Responded true (Some complete_body))
                (reachable_mount _ _) eq_refl eq_refl) as H.
  cbv zeta in H. destruct H as (_ & _ & Hst & Hfl).
  split; [|exact Hfl].
  change (ClickSubmit :: [SelectLanguage java;
            Rerender (mkProps "q9" SNull) no_attempts_left] ++
            [RequestSettles (Responded true (Some complete_body))])
    with [ ClickSubmit; SelectLanguage java;
           Rerender (mkProps "q9" SNull) no_attempts_left;
           RequestSettles (Responded true (Some complete_body)) ] in Hst.
  rewrite Hst. reflexivity.
Defined.

(** No outcome is terminal for the component: after every settlement, a
    session-complete one with no attempts left included, the submit button
    is enabled again, and a click sends a request with the code and language
    the editor then holds. *)
Theorem submit_enabled_after_every_outcome (i : Instance) (pd : Pending)
    (rest : list Pending) (o : FetchOutcome) :
  reachable i -> i_inflight i = pd :: rest ->
  let j := (step i (RequestSettles o)).1 in
  submit_label (i_state j) = "Submit Code" /\
  (step j ClickSubmit).2 =
    [ SetIsSubmitting true;
      Fetch "/api/coding-problem" "POST"
            (mkRequest (currentQuestionId (i_props i)) (code (i_state j))
                       (language (i_state j))) ].
Proof.
  intros Hr Hfl. cbv zeta.
  pose proof (reachable_step i (RequestSettles o) Hr) as Hr'.
  pose proof (reachable_deps_current _ Hr') as Hd'.
  assert (Hs : isSubmitting (i_state (step i (RequestSettles o)).1) = false).
  { rewrite (step_settle i pd rest o (reachable_deps_current i Hr) Hfl).
    cbn [fst i_state].
    destruct (resume_ends_with_finally (p_testStatus pd) (p_state pd) o)
      as [l ->].
    now rewrite apply_actions_app. }
  assert (Hp : i_props (step i (RequestSettles o)).1 = i_props i).
  { now rewrite (step_settle i pd rest o (reachable_deps_current i Hr) Hfl). }
  unfold submit_label. rewrite Hs. split; [reflexivity|].
  rewrite (step_click_submit _ Hd' Hs). cbn [snd].
  unfold handleSubmit_start. now rewrite Hp.
Qed.

Lemma submit_enabled_after_every_outcome_witness :
  let j := (step (submitted no_attempts_left)
                 (RequestSettles (Responded true (Some complete_body)))).1 in
  filter is_fetch (step j ClickSubmit).2
    = [Fetch "/api/coding-problem" "POST" (mkRequest "q1" "print(1)" python)].
Proof.
  cbv zeta.
  rewrite (proj2 (submit_enabled_after_every_outcome
             (submitted no_attempts_left)
             (mkPending sample_props no_attempts_left
                        (initial_state sample_props))
             [] (Responded true (Some complete_body))
             (submitted_reachable _) eq_refl)).
  reflexivity.
Defined.
